(** * AWSRequestSignatureV4.sign: a shallow embedding

    The repository is one static method, [AWSRequestSignatureV4.sign]
    (src/aws-request-sigv4/index.ts), and its types
    (src/aws-request-sigv4/models.ts).  The method builds an [HttpRequest],
    checks that a request that is not a GET carries a body, picks a credential
    provider, and delegates to the AWS SDK's [SignatureV4].

    What the method calls but does not define (the global [URL] class, the
    SDK's [HttpRequest] and [SignatureV4], the credential providers, the
    Powertools logger) is kept abstract: the theorems quantify over every
    behaviour of these collaborators.  *)

From Stdlib Require Import ZArith Ascii String List Bool Floats.
From stdpp Require Import base option strings gmap.

Local Open Scope string_scope.
Local Open Scope list_scope.

(** ** JavaScript values

    [body?: any] can hold any JavaScript value.  The method only ever looks at
    its truthiness, so the value universe is kept small, but every primitive
    with a falsy inhabitant is there. *)

#[warnings="-register-all"] Inductive JSValue : Type :=
| JSUndefined
| JSNull
| JSBoolean (b : bool)
| JSNumber (x : float)
| JSBigInt (z : Z)
| JSString (s : string)
| JSObject (props : list (string * JSValue)).

(** ECMAScript [ToBoolean]: [undefined], [null], [false], [+0], [-0], [NaN],
    [0n] and the empty string are falsy, everything else is truthy. *)
Definition ToBoolean (v : JSValue) : bool :=
  match v with
  | JSUndefined | JSNull => false
  | JSBoolean b => b
  | JSNumber x => negb (PrimFloat.eqb x PrimFloat.zero || PrimFloat.is_nan x)
  | JSBigInt z => negb (z =? 0)%Z
  | JSString s => negb (String.eqb s "")
  | JSObject _ => true
  end.

(** Truthiness of an optional string property such as [roleArn?: string]. *)
Definition truthy_string (o : option string) : bool :=
  match o with
  | Some s => negb (String.eqb s "")
  | None => false
  end.

(** [o || d] for an optional string [o]. *)
Definition string_or (o : option string) (d : string) : string :=
  match o with
  | Some s => if String.eqb s "" then d else s
  | None => d
  end.

(** [{...o}] for an optional string dictionary: spreading [undefined] copies
    nothing. *)
Definition spread (o : option (gmap string string)) : gmap string string :=
  match o with
  | Some m => m
  | None => ∅
  end.

(** ** models.ts *)

(** Errors.  [ctor] is the class the error was built with, [name] and
    [message] are the two properties of [Error]. *)
Inductive ErrorClass : Type :=
| ErrorClass_Error
| ErrorClass_TypeError
| ErrorClass_BadRequestException
| ErrorClass_SDK (className : string).

Module Error.
Record t : Type := mk { ctor : ErrorClass; name : string; message : string }.
End Error.

(** [class BadRequestException extends Error]: [super(message)] followed by
    [this.name = 'BadRequestException']. *)
Definition Error_super (c : ErrorClass) (message : string) : Error.t :=
  {| Error.ctor := c; Error.name := "Error"; Error.message := message |}.

Definition BadRequestException (message : string) : Error.t :=
  let this := Error_super ErrorClass_BadRequestException message in
  {| Error.ctor := Error.ctor this;
     Error.name := "BadRequestException";
     Error.message := Error.message this |}.

(** [type RequestSignatureInput].  The literal unions of [service]
    ('appsync' | 'execute-api') and [method] ('GET' | 'POST' | 'PUT') are
    erased at run time; the fields are the strings the method compares. *)
Module RequestSignatureInput.
Record t : Type := mk {
  service : string;
  region : string;
  roleArn : option string;
  hostname : string;
  path : option string;
  method : string;
  body : JSValue;
  query : option (gmap string string);
  headers : option (gmap string string)
}.
End RequestSignatureInput.

(** ** What the method calls

    Shapes of the objects that cross the boundary between [sign] and the
    libraries it imports. *)

(** The two properties of a parsed [URL] that [sign] reads. *)
Module URL.
Record t : Type := mk { hostname : string; pathname : string }.
End URL.

(** [HttpRequest] of @aws-sdk/protocol-http, with the fields [sign] sets. *)
Module HttpRequest.
Record t : Type := mk {
  hostname : string;
  path : string;
  method : string;
  headers : gmap string string;
  query : gmap string string;
  body : JSValue
}.

(** Assignments to one property. *)
Definition set_query (q : gmap string string) (r : t) : t :=
  mk (hostname r) (path r) (method r) (headers r) q (body r).

Definition set_body (b : JSValue) (r : t) : t :=
  mk (hostname r) (path r) (method r) (headers r) (query r) b.

Definition set_headers (h : gmap string string) (r : t) : t :=
  mk (hostname r) (path r) (method r) h (query r) (body r).
End HttpRequest.

(** [new HttpRequest({ hostname, path, method, headers })].  The constructor
    keeps the four options it is given; [query] starts as an empty dictionary
    and [body] as [undefined], since they are not among them.  What the SDK
    substitutes for an empty method, host name or path is left out: a parsed
    [https] URL has neither an empty host name nor an empty path name, and the
    declared methods are not empty. *)
Definition new_HttpRequest (hostname path method : string)
    (headers : gmap string string) : HttpRequest.t :=
  {| HttpRequest.hostname := hostname;
     HttpRequest.path := path;
     HttpRequest.method := method;
     HttpRequest.headers := headers;
     HttpRequest.query := ∅;
     HttpRequest.body := JSUndefined |}.

(** Parameters of [fromTemporaryCredentials({ params: { ... } })]. *)
Record AssumeRoleParams : Type := {
  RoleArn : string;
  DurationSeconds : Z
}.

(** The credential provider handed to the signer: which factory built it and
    with what.  A provider is only resolved when the signer awaits it. *)
Inductive CredentialProvider : Type :=
| fromTemporaryCredentials (params : AssumeRoleParams)
| defaultProvider.

(** Resolved credentials ([AwsCredentialIdentity]). *)
Record Credentials : Type := {
  accessKeyId : string;
  secretAccessKey : string;
  sessionToken : option string
}.

Inductive HashConstructor : Type := Sha256.

(** The options of [new SignatureV4({ credentials, service, region, sha256 })]. *)
Module SignatureV4.
Record t : Type := mk {
  credentials : CredentialProvider;
  service : string;
  region : string;
  sha256 : HashConstructor
}.
End SignatureV4.

(** A Powertools [Logger] instance, named by its service name. *)
Inductive Logger : Type := PowertoolsLogger (serviceName : string).

Inductive Result (A : Type) : Type :=
| Ok (a : A)
| Err (e : Error.t).
Arguments Ok {A} a.
Arguments Err {A} e.

(** Library code: deterministic functions of their arguments.  [new_URL] is
    the WHATWG parser behind [new URL(address)], which throws on an address it
    rejects.  [sigv4_sign] and [sigv4_presign] are the SigV4 computations of
    [SignatureV4.sign] and [SignatureV4.presign], once the credentials are
    resolved and the signing date is taken. *)
Record Libraries : Type := {
  new_URL : string -> Result URL.t;
  sigv4_sign :
    Credentials -> Z -> SignatureV4.t -> HttpRequest.t -> Result HttpRequest.t;
  sigv4_presign :
    Credentials -> Z -> SignatureV4.t -> HttpRequest.t -> Result HttpRequest.t
}.

(** What lies outside the process at the time of one call: what each
    credential provider resolves to, and the clock the signer reads, in
    milliseconds since the epoch. *)
Record World : Type := {
  resolve : CredentialProvider -> Result Credentials;
  now : Z
}.

(** ** Outcomes and call traces

    One invocation of [sign] ends in one of three ways, and on its way it
    calls its collaborators in some order.  [Thrown] is an error raised by a
    [throw] statement of [sign] itself; [Propagated] is an error raised inside
    a collaborator, which [sign] never catches. *)

Inductive Outcome (A : Type) : Type :=
| Returned (a : A)
| Thrown (e : Error.t)
| Propagated (e : Error.t).
Arguments Returned {A} a.
Arguments Thrown {A} e.
Arguments Propagated {A} e.

Inductive Call : Type :=
| call_URL (address : string)
| call_debug (logger : Logger) (message : string) (payload : HttpRequest.t)
| call_sign (signer : SignatureV4.t) (request : HttpRequest.t)
| call_presign (signer : SignatureV4.t) (request : HttpRequest.t).

(** A computation is the list of calls it made, in order, and how it ended. *)
Definition M (A : Type) : Type := (list Call * Outcome A)%type.

Definition ret {A} (a : A) : M A := ([], Returned a).

Definition throw {A} (e : Error.t) : M A := ([], Thrown e).

Definition bind {A B} (m : M A) (k : A -> M B) : M B :=
  match m with
  | (t, Returned a) => let (t', o) := k a in (t ++ t', o)
  | (t, Thrown e) => (t, Thrown e)
  | (t, Propagated e) => (t, Propagated e)
  end.

Notation "'let*' x ':=' m 'in' k" := (bind m (fun x => k))
  (at level 10, x name, m at level 100, k at level 200).

Definition calls {A} (m : M A) : list Call := fst m.
Definition outcome {A} (m : M A) : Outcome A := snd m.

(** Awaiting a library call: the call is recorded and its error, if any,
    propagates. *)
Definition await {A} (c : Call) (r : Result A) : M A :=
  ([c], match r with Ok a => Returned a | Err e => Propagated e end).

Definition is_signing (c : Call) : bool :=
  match c with
  | call_sign _ _ | call_presign _ _ => true
  | call_URL _ | call_debug _ _ _ => false
  end.

Definition is_sign (c : Call) : bool :=
  match c with call_sign _ _ => true | _ => false end.

Definition is_presign (c : Call) : bool :=
  match c with call_presign _ _ => true | _ => false end.

(** The requests handed to the signer during a computation, by either of its
    two entry points. *)
Definition signed_requests (t : list Call) : list HttpRequest.t :=
  omap (fun c => match c with
                 | call_sign _ r | call_presign _ r => Some r
                 | _ => None
                 end) t.

Definition signers (t : list Call) : list SignatureV4.t :=
  omap (fun c => match c with
                 | call_sign s _ | call_presign s _ => Some s
                 | _ => None
                 end) t.

(** ** index.ts *)

Definition TypeError (message : string) : Error.t :=
  {| Error.ctor := ErrorClass_TypeError;
     Error.name := "TypeError";
     Error.message := message |}.

(** The address given to [new URL]: the template
    [`https://${input.hostname}${input.path || ''}`]. *)
Definition address (input : RequestSignatureInput.t) : string :=
  "https://" +:+ RequestSignatureInput.hostname input
             +:+ string_or (RequestSignatureInput.path input) "".

(** Lines 46 to 54: the request before the query and the body are set. *)
Definition initial_request (input : RequestSignatureInput.t) (url : URL.t)
    : HttpRequest.t :=
  new_HttpRequest
    (URL.hostname url)
    (URL.pathname url)
    (RequestSignatureInput.method input)
    (<["host" := URL.hostname url]> (spread (RequestSignatureInput.headers input))).

(** Lines 57 to 59. *)
Definition with_query (input : RequestSignatureInput.t) (request : HttpRequest.t)
    : HttpRequest.t :=
  match RequestSignatureInput.query input with
  | Some q => HttpRequest.set_query q request
  | None => request
  end.

(** Lines 68 to 75. *)
Definition credentialsToUse (input : RequestSignatureInput.t) : CredentialProvider :=
  match RequestSignatureInput.roleArn input with
  | Some arn =>
      if truthy_string (Some arn)
      then fromTemporaryCredentials {| RoleArn := arn; DurationSeconds := 3600 |}
      else defaultProvider
  | None => defaultProvider
  end.

(** Line 77. *)
Definition new_signer (input : RequestSignatureInput.t) : SignatureV4.t :=
  {| SignatureV4.credentials := credentialsToUse input;
     SignatureV4.service := RequestSignatureInput.service input;
     SignatureV4.region := RequestSignatureInput.region input;
     SignatureV4.sha256 := Sha256 |}.

(** Line 82: [delete signedRequest.headers.host]. *)
Definition delete_host (signedRequest : HttpRequest.t) : HttpRequest.t :=
  HttpRequest.set_headers (delete "host" (HttpRequest.headers signedRequest))
    signedRequest.

(** Line 80: [addSignatureTo === 'headers'], for an argument that may be
    omitted. *)
Definition is_headers (addSignatureTo : option string) : bool :=
  match addSignatureTo with
  | Some mode => String.eqb mode "headers"
  | None => false
  end.

Section Sign.

Variable L : Libraries.
Variable W : World.

(** [new URL(address)]. *)
Definition URL_new (addr : string) : M URL.t :=
  await (call_URL addr) (new_URL L addr).

(** [logger?.debug(message, { request })]: nothing happens without a logger. *)
Definition debug (logger : option Logger) (message : string)
    (payload : HttpRequest.t) : M unit :=
  match logger with
  | Some l => ([call_debug l message payload], Returned tt)
  | None => ret tt
  end.

(** What the signer does with the provider it was built with: it awaits the
    credentials, reads the clock, and signs. *)
Definition signer_answer
    (f : Credentials -> Z -> SignatureV4.t -> HttpRequest.t -> Result HttpRequest.t)
    (signer : SignatureV4.t) (request : HttpRequest.t) : Result HttpRequest.t :=
  match resolve W (SignatureV4.credentials signer) with
  | Ok c => f c (now W) signer request
  | Err e => Err e
  end.

(** [await signer.sign(request)] and [await signer.presign(request)]. *)
Definition signer_sign (signer : SignatureV4.t) (request : HttpRequest.t)
    : M HttpRequest.t :=
  await (call_sign signer request) (signer_answer (sigv4_sign L) signer request).

Definition signer_presign (signer : SignatureV4.t) (request : HttpRequest.t)
    : M HttpRequest.t :=
  await (call_presign signer request)
        (signer_answer (sigv4_presign L) signer request).

(** Lines 61 to 66. *)
Definition with_body (input : RequestSignatureInput.t) (request : HttpRequest.t)
    : M HttpRequest.t :=
  if negb (String.eqb (RequestSignatureInput.method input) "GET") then
    if negb (ToBoolean (RequestSignatureInput.body input)) then
      throw (BadRequestException "Request body is missing")
    else
      ret (HttpRequest.set_body (RequestSignatureInput.body input) request)
  else ret request.

(** Lines 79 to 85. *)
Definition dispatch (addSignatureTo : option string) (signer : SignatureV4.t)
    (request : HttpRequest.t) : M HttpRequest.t :=
  if is_headers addSignatureTo then
    let* signedRequest := signer_sign signer request in
    ret (delete_host signedRequest)
  else signer_presign signer request.

(** [AWSRequestSignatureV4.sign(input, addSignatureTo?, logger?)]. *)
Definition sign (input : RequestSignatureInput.t)
    (addSignatureTo : option string) (logger : option Logger) : M HttpRequest.t :=
  let* url := URL_new (address input) in
  let request := initial_request input url in
  let* _ := debug logger "AWSRequestSignatureV4 | Pre-signed request" request in
  let request := with_query input request in
  let* request := with_body input request in
  let signer := new_signer input in
  let* signedRequest := dispatch addSignatureTo signer request in
  let* _ := debug logger "AWSRequestSignatureV4 | Signed request" signedRequest in
  ret signedRequest.

End Sign.

(** ** Sample collaborators

    To run [sign] on concrete inputs the collaborators must be concrete too.
    These stand in for the real ones on the plain inputs of the examples
    below; no general statement depends on them. *)

Module Sample.

(** Splits [host/rest] before its first slash. *)
Fixpoint split_host (s : string) : string * string :=
  match s with
  | EmptyString => ("", "")
  | String c s' =>
      if Ascii.eqb c "/"%char then ("", s)
      else let (h, p) := split_host s' in (String c h, p)
  end.

(** [new URL] on addresses of the form [https://host] or [https://host/path],
    where [host] is a lower-case DNS name and [path] has only unreserved
    characters and no dot segments: the host is what precedes the first slash,
    the path name is the rest, or [/] when there is none, and an empty host is
    rejected with a [TypeError]. *)
Definition URL_parse (addr : string) : Result URL.t :=
  if String.prefix "https://" addr then
    let (host, rest) := split_host (String.substring 8 (String.length addr - 8) addr) in
    if String.eqb host "" then Err (TypeError "Invalid URL")
    else Ok {| URL.hostname := host;
               URL.pathname := if String.eqb rest "" then "/" else rest |}
  else Err (TypeError "Invalid URL").

Definition scope (signer : SignatureV4.t) : string :=
  SignatureV4.region signer +:+ "/" +:+ SignatureV4.service signer +:+ "/aws4_request".

(** A signer that marks the request the way the SDK does, without computing
    any hash: [sign] adds an [authorization] header, [presign] adds the
    [X-Amz-*] query parameters; both keep the [host] header. *)
Definition mark_headers (c : Credentials) (date : Z) (signer : SignatureV4.t)
    (request : HttpRequest.t) : Result HttpRequest.t :=
  Ok (HttpRequest.set_headers
        (<["authorization" :=
             "AWS4-HMAC-SHA256 Credential=" +:+ accessKeyId c +:+ "/" +:+ scope signer
             +:+ ", SignedHeaders=host, Signature=0"]>
           (HttpRequest.headers request))
        request).

Definition mark_query (c : Credentials) (date : Z) (signer : SignatureV4.t)
    (request : HttpRequest.t) : Result HttpRequest.t :=
  Ok (HttpRequest.set_query
        (<["X-Amz-Signature" := "0"]>
           (<["X-Amz-SignedHeaders" := "host"]>
              (<["X-Amz-Credential" := accessKeyId c +:+ "/" +:+ scope signer]>
                 (<["X-Amz-Algorithm" := "AWS4-HMAC-SHA256"]>
                    (HttpRequest.query request)))))
        request).

Definition libraries : Libraries :=
  {| new_URL := URL_parse; sigv4_sign := mark_headers; sigv4_presign := mark_query |}.

Definition key : Credentials :=
  {| accessKeyId := "AKIDEXAMPLE";
     secretAccessKey := "wJalrXUtnFEMI/K7MDENG/bPxRfiCYEXAMPLEKEY";
     sessionToken := None |}.

(** Every provider resolves to the same key; the clock shows
    2015-08-30T12:36:00Z. *)
Definition world : World :=
  {| resolve := fun _ => Ok key; now := 1440938160000 |}.

(** Same clock and key, but the default chain has nothing to offer. *)
Definition world_without_default : World :=
  {| resolve := fun p =>
       match p with
       | fromTemporaryCredentials _ => Ok key
       | defaultProvider =>
           Err {| Error.ctor := ErrorClass_SDK "CredentialsProviderError";
                  Error.name := "CredentialsProviderError";
                  Error.message := "Could not load credentials from any providers" |}
       end;
     now := 1440938160000 |}.

(** The input of the class documentation. *)
Definition get_users : RequestSignatureInput.t :=
  {| RequestSignatureInput.service := "execute-api";
     RequestSignatureInput.region := "eu-west-1";
     RequestSignatureInput.roleArn := Some "arn:aws:iam::1111111111:role/example";
     RequestSignatureInput.hostname := "example-api.com";
     RequestSignatureInput.path := Some "/users";
     RequestSignatureInput.method := "GET";
     RequestSignatureInput.body := JSUndefined;
     RequestSignatureInput.query := Some {["param1" := "paramValue"]};
     RequestSignatureInput.headers := None |}.

(** Further inputs, in the order of the fields: service, region, roleArn,
    hostname, path, method, body, query, headers. *)

(** A POST whose body is there, and is the empty string. *)
Definition post_empty_string : RequestSignatureInput.t :=
  RequestSignatureInput.mk "execute-api" "eu-west-1" None
    "example-api.com" (Some "/users") "POST" (JSString "") None None.

(** A POST without a body and without a host to parse. *)
Definition post_nowhere : RequestSignatureInput.t :=
  RequestSignatureInput.mk "execute-api" "eu-west-1" None
    "" None "POST" JSUndefined None None.

(** A POST without a body. *)
Definition post_nothing : RequestSignatureInput.t :=
  RequestSignatureInput.mk "execute-api" "eu-west-1" None
    "example-api.com" (Some "/users") "POST" JSUndefined None None.

(** A PUT with a body. *)
Definition put_user : RequestSignatureInput.t :=
  RequestSignatureInput.mk "execute-api" "eu-west-1" None
    "example-api.com" (Some "/users/7") "PUT"
    (JSObject [("name", JSString "alice")]) None None.

(** GET requests with an empty region, and with an empty service. *)
Definition get_no_region : RequestSignatureInput.t :=
  RequestSignatureInput.mk "execute-api" "" None
    "example-api.com" (Some "/users") "GET" JSUndefined None None.

Definition get_no_service : RequestSignatureInput.t :=
  RequestSignatureInput.mk "" "eu-west-1" None
    "example-api.com" (Some "/users") "GET" JSUndefined None None.

(** A GET whose role ARN is there, and is the empty string. *)
Definition get_empty_role : RequestSignatureInput.t :=
  RequestSignatureInput.mk "execute-api" "eu-west-1" (Some "")
    "example-api.com" (Some "/users") "GET" JSUndefined None None.

(** GET requests without a path: to a bare host, and to a base URL that has a
    path of its own. *)
Definition get_root : RequestSignatureInput.t :=
  RequestSignatureInput.mk "execute-api" "eu-west-1" None
    "example-api.com" None "GET" JSUndefined None None.

Definition get_base : RequestSignatureInput.t :=
  RequestSignatureInput.mk "execute-api" "eu-west-1" None
    "example-api.com/v1" None "GET" JSUndefined None None.

(** A GET that comes with a body and with headers of its own, [host] among
    them. *)
Definition get_loaded : RequestSignatureInput.t :=
  RequestSignatureInput.mk "appsync" "eu-west-1" None
    "example-api.com" (Some "/graphql") "GET" (JSString "ignored") None
    (Some (<["host" := "elsewhere.example"]> {["accept" := "application/json"]})).

End Sample.

(** ** The runs of [sign]

    The six ways one invocation can go, as a relation between the arguments
    and the computation.  [sign_Run] below shows that [sign] always goes one
    of these ways; the properties of [sign] are then read off by inversion. *)

Definition msg_pre : string := "AWSRequestSignatureV4 | Pre-signed request".
Definition msg_post : string := "AWSRequestSignatureV4 | Signed request".

(** The request as it stands when the signer is called. *)
Definition submitted (input : RequestSignatureInput.t) (url : URL.t) : HttpRequest.t :=
  let request := with_query input (initial_request input url) in
  if String.eqb (RequestSignatureInput.method input) "GET" then request
  else HttpRequest.set_body (RequestSignatureInput.body input) request.

Definition logged (logger : option Logger) (message : string)
    (payload : HttpRequest.t) : list Call :=
  match logger with
  | Some l => [call_debug l message payload]
  | None => []
  end.

Definition before_validation (input : RequestSignatureInput.t)
    (logger : option Logger) (url : URL.t) : list Call :=
  call_URL (address input) :: logged logger msg_pre (initial_request input url).

Definition body_accepted (input : RequestSignatureInput.t) : Prop :=
  RequestSignatureInput.method input = "GET"
  \/ ToBoolean (RequestSignatureInput.body input) = true.

Inductive Run (L : Libraries) (W : World) (input : RequestSignatureInput.t)
    (addSignatureTo : option string) (logger : option Logger)
    : M HttpRequest.t -> Prop :=
| Run_address_rejected e :
    new_URL L (address input) = Err e ->
    Run L W input addSignatureTo logger
      ([call_URL (address input)], Propagated e)
| Run_body_missing url :
    new_URL L (address input) = Ok url ->
    RequestSignatureInput.method input <> "GET" ->
    ToBoolean (RequestSignatureInput.body input) = false ->
    Run L W input addSignatureTo logger
      (before_validation input logger url,
       Thrown (BadRequestException "Request body is missing"))
| Run_sign_failed url e :
    new_URL L (address input) = Ok url ->
    body_accepted input ->
    addSignatureTo = Some "headers" ->
    signer_answer W (sigv4_sign L) (new_signer input) (submitted input url) = Err e ->
    Run L W input addSignatureTo logger
      (before_validation input logger url
         ++ [call_sign (new_signer input) (submitted input url)],
       Propagated e)
| Run_signed url signed :
    new_URL L (address input) = Ok url ->
    body_accepted input ->
    addSignatureTo = Some "headers" ->
    signer_answer W (sigv4_sign L) (new_signer input) (submitted input url) = Ok signed ->
    Run L W input addSignatureTo logger
      (before_validation input logger url
         ++ call_sign (new_signer input) (submitted input url)
         :: logged logger msg_post (delete_host signed),
       Returned (delete_host signed))
| Run_presign_failed url e :
    new_URL L (address input) = Ok url ->
    body_accepted input ->
    addSignatureTo <> Some "headers" ->
    signer_answer W (sigv4_presign L) (new_signer input) (submitted input url) = Err e ->
    Run L W input addSignatureTo logger
      (before_validation input logger url
         ++ [call_presign (new_signer input) (submitted input url)],
       Propagated e)
| Run_presigned url signed :
    new_URL L (address input) = Ok url ->
    body_accepted input ->
    addSignatureTo <> Some "headers" ->
    signer_answer W (sigv4_presign L) (new_signer input) (submitted input url) = Ok signed ->
    Run L W input addSignatureTo logger
      (before_validation input logger url
         ++ call_presign (new_signer input) (submitted input url)
         :: logged logger msg_post signed,
       Returned signed).

(** The calls to the signer among the calls of a computation. *)
Definition signing_calls (t : list Call) : list Call := List.filter is_signing t.

(** ** Reading the rest of a trace

    What a run logged, and the call to [URL] in it. *)

Definition is_debug (c : Call) : bool :=
  match c with call_debug _ _ _ => true | _ => false end.

Definition is_URL (c : Call) : bool :=
  match c with call_URL _ => true | _ => false end.

(** The log entries of a computation: message and payload, in order. *)
Definition debug_entries (t : list Call) : list (string * HttpRequest.t) :=
  omap (fun c => match c with
                 | call_debug _ message payload => Some (message, payload)
                 | _ => None
                 end) t.

(** A trace with its log calls taken out. *)
Definition without_debug (t : list Call) : list Call :=
  List.filter (fun c => negb (is_debug c)) t.

(** The guard of lines 61 and 62 taken together. *)
Definition body_missing (input : RequestSignatureInput.t) : bool :=
  negb (String.eqb (RequestSignatureInput.method input) "GET")
  && negb (ToBoolean (RequestSignatureInput.body input)).

(** Two inputs that agree on everything but the host name and the path. *)
Definition same_but_address (i1 i2 : RequestSignatureInput.t) : Prop :=
  RequestSignatureInput.service i1 = RequestSignatureInput.service i2
  /\ RequestSignatureInput.region i1 = RequestSignatureInput.region i2
  /\ RequestSignatureInput.roleArn i1 = RequestSignatureInput.roleArn i2
  /\ RequestSignatureInput.method i1 = RequestSignatureInput.method i2
  /\ RequestSignatureInput.body i1 = RequestSignatureInput.body i2
  /\ RequestSignatureInput.query i1 = RequestSignatureInput.query i2
  /\ RequestSignatureInput.headers i1 = RequestSignatureInput.headers i2.

(** More sample inputs and collaborators. *)

(** [Sample.get_base] with its path moved out of the host name. *)
Definition sample_get_v1 : RequestSignatureInput.t :=
  RequestSignatureInput.mk "execute-api" "eu-west-1" None
    "example-api.com" (Some "/v1") "GET" JSUndefined None None.

(** A POST with a body and a query. *)
Definition sample_post_order : RequestSignatureInput.t :=
  RequestSignatureInput.mk "execute-api" "eu-west-1" None
    "example-api.com" (Some "/orders") "POST" (JSString "order=7")
    (Some {["dryRun" := "true"]}) None.

Definition sample_logger : Logger := PowertoolsLogger "orders".

(** The sample libraries, with a signer whose answer has no headers left. *)
Definition sample_bare_libraries : Libraries :=
  {| new_URL := Sample.URL_parse;
     sigv4_sign := fun _ _ _ request => Ok (HttpRequest.set_headers ∅ request);
     sigv4_presign := Sample.mark_query |}.

(** ** Host names without a path *)

(** A bare host name: no slash, and no backslash, which the parser of an
    [https] address reads as a slash. *)
Fixpoint bare_host (h : string) : bool :=
  match h with
  | EmptyString => true
  | String c h' =>
      negb (Ascii.eqb c "/"%char || Ascii.eqb c "\"%char) && bare_host h'
  end.

(** The one fact about the [URL] constructor that the empty path rests on:
    an [https] address that ends with its host has the root as its path, so
    when the constructor accepts [https://] followed by a bare host name,
    the path name it reports is [/]. *)
Definition root_for_bare_host (L : Libraries) : Prop :=
  forall h url,
    bare_host h = true ->
    new_URL L ("https://" +:+ h) = Ok url ->
    URL.pathname url = "/".

(** * Properties *)

(** ** Small facts about the building blocks *)

Lemma is_headers_true addSignatureTo :
  is_headers addSignatureTo = true <-> addSignatureTo = Some "headers".
Proof.
  destruct addSignatureTo as [mode|]; simpl.
  - rewrite String.eqb_eq. split; congruence.
  - split; discriminate.
Qed.

Lemma is_headers_false addSignatureTo :
  is_headers addSignatureTo = false <-> addSignatureTo <> Some "headers".
Proof.
  rewrite <- is_headers_true. destruct (is_headers addSignatureTo); split;
    congruence.
Qed.

Lemma debug_logged logger message payload :
  debug logger message payload = (logged logger message payload, Returned tt).
Proof. destruct logger; reflexivity. Qed.

Lemma with_body_GET input request :
  RequestSignatureInput.method input = "GET" ->
  with_body input request = ret request.
Proof. intros H. unfold with_body. rewrite H. reflexivity. Qed.

Lemma with_body_missing input request :
  RequestSignatureInput.method input <> "GET" ->
  ToBoolean (RequestSignatureInput.body input) = false ->
  with_body input request = throw (BadRequestException "Request body is missing").
Proof.
  intros Hm Hb. unfold with_body.
  apply String.eqb_neq in Hm. rewrite Hm, Hb. reflexivity.
Qed.

Lemma with_body_attached input request :
  RequestSignatureInput.method input <> "GET" ->
  ToBoolean (RequestSignatureInput.body input) = true ->
  with_body input request
  = ret (HttpRequest.set_body (RequestSignatureInput.body input) request).
Proof.
  intros Hm Hb. unfold with_body.
  apply String.eqb_neq in Hm. rewrite Hm, Hb. reflexivity.
Qed.

(** Once the body rule is passed, the request at hand is [submitted]. *)
Lemma with_body_submitted input url :
  body_accepted input ->
  with_body input (with_query input (initial_request input url))
  = ret (submitted input url).
Proof.
  intros Hacc. unfold submitted.
  destruct (String.eqb (RequestSignatureInput.method input) "GET") eqn:Hm.
  - apply String.eqb_eq in Hm. now apply with_body_GET.
  - apply String.eqb_neq in Hm. destruct Hacc as [Hget|Hb]; [contradiction|].
    now apply with_body_attached.
Qed.

Lemma body_rule_cases input :
  body_accepted input
  \/ (RequestSignatureInput.method input <> "GET"
      /\ ToBoolean (RequestSignatureInput.body input) = false).
Proof.
  unfold body_accepted.
  destruct (String.eqb_spec (RequestSignatureInput.method input) "GET");
    destruct (ToBoolean (RequestSignatureInput.body input)); auto.
Qed.

(** Every invocation is one of the six runs. *)
Lemma sign_Run L W input addSignatureTo logger :
  Run L W input addSignatureTo logger (sign L W input addSignatureTo logger).
Proof.
  unfold sign, URL_new, await.
  destruct (new_URL L (address input)) as [url|e] eqn:Hurl; simpl.
  { rewrite debug_logged.
    destruct (body_rule_cases input) as [Hacc|[Hm Hb]].
    - rewrite (with_body_submitted _ _ Hacc). simpl.
      unfold dispatch, signer_sign, signer_presign, await.
      destruct (is_headers addSignatureTo) eqn:Hmode.
      + apply is_headers_true in Hmode.
        destruct (signer_answer W (sigv4_sign L) (new_signer input)
                    (submitted input url)) as [signed|e] eqn:Hans; simpl.
        * rewrite debug_logged. simpl. rewrite app_nil_r.
          replace (call_URL (address input)
                   :: (logged logger msg_pre (initial_request input url)
                       ++ call_sign (new_signer input) (submitted input url)
                       :: logged logger msg_post (delete_host signed)))
            with (before_validation input logger url
                  ++ call_sign (new_signer input) (submitted input url)
                  :: logged logger msg_post (delete_host signed))
            by reflexivity.
          now apply Run_signed.
        * now apply (Run_sign_failed L W input addSignatureTo logger url e).
      + apply is_headers_false in Hmode.
        destruct (signer_answer W (sigv4_presign L) (new_signer input)
                    (submitted input url)) as [signed|e] eqn:Hans; simpl.
        * rewrite debug_logged. simpl. rewrite app_nil_r.
          now apply (Run_presigned L W input addSignatureTo logger url signed).
        * now apply (Run_presign_failed L W input addSignatureTo logger url e).
    - rewrite (with_body_missing _ _ Hm Hb). simpl. rewrite app_nil_r.
      now apply Run_body_missing. }
  now apply Run_address_rejected.
Qed.

(** The log calls and the call to [URL] are not calls to the signer. *)
Lemma logged_no_signing logger message payload :
  signing_calls (logged logger message payload) = []
  /\ signed_requests (logged logger message payload) = []
  /\ signers (logged logger message payload) = [].
Proof. destruct logger; repeat split. Qed.

Lemma before_validation_no_signing input logger url :
  signing_calls (before_validation input logger url) = []
  /\ signed_requests (before_validation input logger url) = []
  /\ signers (before_validation input logger url) = [].
Proof. unfold before_validation. destruct logger; repeat split. Qed.

Lemma signing_calls_app t1 t2 :
  signing_calls (t1 ++ t2) = signing_calls t1 ++ signing_calls t2.
Proof. apply List.filter_app. Qed.

Lemma signed_requests_app t1 t2 :
  signed_requests (t1 ++ t2) = signed_requests t1 ++ signed_requests t2.
Proof. apply omap_app. Qed.

Lemma signers_app t1 t2 : signers (t1 ++ t2) = signers t1 ++ signers t2.
Proof. apply omap_app. Qed.

(** The signer is called at most once, after everything else but the last
    log call. *)
Lemma signing_around input logger url c message payload :
  is_signing c = true ->
  signing_calls (before_validation input logger url
                   ++ c :: logged logger message payload) = [c].
Proof.
  intros Hc. rewrite signing_calls_app.
  destruct (before_validation_no_signing input logger url) as [-> _].
  unfold signing_calls at 1. simpl. rewrite Hc.
  destruct (logged_no_signing logger message payload) as [H _].
  unfold signing_calls in H. now rewrite H.
Qed.

Lemma signing_last input logger url c :
  is_signing c = true ->
  signing_calls (before_validation input logger url ++ [c]) = [c].
Proof.
  intros Hc. rewrite signing_calls_app.
  destruct (before_validation_no_signing input logger url) as [-> _].
  unfold signing_calls. simpl. now rewrite Hc.
Qed.

(** What was handed to the signer can be read off its calls. *)
Lemma signed_requests_signing t :
  signed_requests t = signed_requests (signing_calls t).
Proof.
  induction t as [|c t IH]; [reflexivity|].
  destruct c; simpl; unfold signing_calls in *; simpl; now rewrite <- ?IH.
Qed.

Lemma signers_signing t : signers t = signers (signing_calls t).
Proof.
  induction t as [|c t IH]; [reflexivity|].
  destruct c; simpl; unfold signing_calls in *; simpl; now rewrite <- ?IH.
Qed.

(** The calls to the signer in each kind of run. *)
Lemma Run_signing_calls L W input addSignatureTo logger m :
  Run L W input addSignatureTo logger m ->
  signing_calls (calls m) = []
  \/ exists url,
       new_URL L (address input) = Ok url
       /\ body_accepted input
       /\ ((addSignatureTo = Some "headers"
            /\ signing_calls (calls m)
               = [call_sign (new_signer input) (submitted input url)])
           \/ (addSignatureTo <> Some "headers"
               /\ signing_calls (calls m)
                  = [call_presign (new_signer input) (submitted input url)])).
Proof.
  intros HR. destruct HR as [e He|url Hu Hm Hb|url e Hu Ha Hmode Hans
                             |url signed Hu Ha Hmode Hans
                             |url e Hu Ha Hmode Hans
                             |url signed Hu Ha Hmode Hans]; unfold calls; cbn [fst].
  - now left.
  - left. apply before_validation_no_signing.
  - right. exists url. rewrite signing_last by reflexivity. auto.
  - right. exists url. rewrite signing_around by reflexivity. auto.
  - right. exists url. rewrite signing_last by reflexivity. auto 6.
  - right. exists url. rewrite signing_around by reflexivity. auto 6.
Qed.

(** A run that ends in an error of [sign]'s own is the missing-body run. *)
Lemma Run_thrown L W input addSignatureTo logger m e :
  Run L W input addSignatureTo logger m ->
  outcome m = Thrown e ->
  e = BadRequestException "Request body is missing"
  /\ RequestSignatureInput.method input <> "GET"
  /\ ToBoolean (RequestSignatureInput.body input) = false
  /\ signing_calls (calls m) = [].
Proof.
  intros HR. destruct HR; unfold outcome, calls; simpl; intros Ho;
    try discriminate.
  injection Ho as <-. repeat split; auto.
  apply before_validation_no_signing.
Qed.

(** Past the address and the body rule, the signer is called exactly once,
    by the entry point the mode selects. *)
Lemma signer_reached L W input addSignatureTo logger url :
  new_URL L (address input) = Ok url ->
  body_accepted input ->
  let t := signing_calls (calls (sign L W input addSignatureTo logger)) in
  (addSignatureTo = Some "headers"
   /\ t = [call_sign (new_signer input) (submitted input url)])
  \/ (addSignatureTo <> Some "headers"
      /\ t = [call_presign (new_signer input) (submitted input url)]).
Proof.
  intros Hurl Hacc t. subst t.
  destruct (sign_Run L W input addSignatureTo logger)
    as [e He|url' Hu Hm Hb|url' e Hu _ Hmode _|url' signed Hu _ Hmode _
        |url' e Hu _ Hmode _|url' signed Hu _ Hmode _];
    try congruence; try (destruct Hacc; congruence);
    assert (url' = url) by congruence; subst url';
    unfold calls; cbn [fst];
    rewrite ?signing_last, ?signing_around by reflexivity; auto.
Qed.

Lemma signed_requests_reached L W input addSignatureTo logger url :
  new_URL L (address input) = Ok url ->
  body_accepted input ->
  signed_requests (calls (sign L W input addSignatureTo logger))
  = [submitted input url]
  /\ signers (calls (sign L W input addSignatureTo logger)) = [new_signer input].
Proof.
  intros Hurl Hacc. rewrite signed_requests_signing, signers_signing.
  destruct (signer_reached L W input addSignatureTo logger url Hurl Hacc)
    as [[_ ->]|[_ ->]]; split; reflexivity.
Qed.

(** The falsy values, and a few truthy ones that look empty. *)
Example falsy_values :
  ToBoolean <$> [JSUndefined; JSNull; JSBoolean false; JSNumber 0%float;
                 JSNumber (-0)%float; JSNumber PrimFloat.nan; JSBigInt 0;
                 JSString ""]
  = [false; false; false; false; false; false; false; false].
Proof. reflexivity. Qed.

Example truthy_values :
  ToBoolean <$> [JSBoolean true; JSNumber 1%float; JSNumber PrimFloat.infinity;
                 JSBigInt (-1); JSString "0"; JSString " "; JSObject []]
  = [true; true; true; true; true; true; true].
Proof. reflexivity. Qed.

Example sample_get_query :
  outcome (sign Sample.libraries Sample.world Sample.get_users None None)
  = Returned
      {| HttpRequest.hostname := "example-api.com";
         HttpRequest.path := "/users";
         HttpRequest.method := "GET";
         HttpRequest.headers := {["host" := "example-api.com"]};
         HttpRequest.query :=
           <["X-Amz-Signature" := "0"]>
             (<["X-Amz-SignedHeaders" := "host"]>
                (<["X-Amz-Credential" := "AKIDEXAMPLE/eu-west-1/execute-api/aws4_request"]>
                   (<["X-Amz-Algorithm" := "AWS4-HMAC-SHA256"]>
                      {["param1" := "paramValue"]})));
         HttpRequest.body := JSUndefined |}.
Proof. vm_compute. reflexivity. Qed.

(** ** The body rule (lines 61 to 66) *)

(** C1, as stated, fails twice.  A POST whose body is the empty string has a
    body, and [sign] still throws "Request body is missing": the test is on
    the truthiness of the body, not on its presence.  And a POST without a
    body whose address the [URL] constructor rejects never reaches the test:
    the error that comes out is the constructor's [TypeError]. *)
Lemma body_presence_counterexample :
  (RequestSignatureInput.method Sample.post_empty_string = "POST"
   /\ RequestSignatureInput.body Sample.post_empty_string = JSString ""
   /\ outcome (sign Sample.libraries Sample.world Sample.post_empty_string
                 (Some "headers") None)
      = Thrown (BadRequestException "Request body is missing"))
  /\ (RequestSignatureInput.method Sample.post_nowhere = "POST"
      /\ RequestSignatureInput.body Sample.post_nowhere = JSUndefined
      /\ outcome (sign Sample.libraries Sample.world Sample.post_nowhere
                    (Some "headers") None)
         = Propagated (TypeError "Invalid URL")).
Proof. repeat split. Qed.

(** C1, amended: for every input whose address the [URL] constructor accepts
    and whose method is POST or PUT, a falsy body (absent, [null], [false],
    [0], [NaN], [0n] or the empty string) makes [sign] throw
    [BadRequestException] "Request body is missing" without any call to the
    signer, and a truthy body makes [sign] throw no error of its own and hand
    the signer, once, a request that carries this body. *)
Theorem body_rule L W input addSignatureTo logger url :
  new_URL L (address input) = Ok url ->
  RequestSignatureInput.method input = "POST"
  \/ RequestSignatureInput.method input = "PUT" ->
  let run := sign L W input addSignatureTo logger in
  (ToBoolean (RequestSignatureInput.body input) = false ->
   outcome run = Thrown (BadRequestException "Request body is missing")
   /\ signing_calls (calls run) = [])
  /\ (ToBoolean (RequestSignatureInput.body input) = true ->
      (forall e, outcome run <> Thrown e)
      /\ (exists request,
            signed_requests (calls run) = [request]
            /\ HttpRequest.body request = RequestSignatureInput.body input)).
Proof.
  intros Hurl Hmethod run.
  assert (Hm : RequestSignatureInput.method input <> "GET")
    by (destruct Hmethod as [H|H]; rewrite H; discriminate).
  pose proof (sign_Run L W input addSignatureTo logger) as HR. fold run in HR.
  split; intros Hb.
  - destruct HR as [e He|url' Hu _ _|url' e Hu [Ha|Ha] _ _
                    |url' signed Hu [Ha|Ha] _ _
                    |url' e Hu [Ha|Ha] _ _
                    |url' signed Hu [Ha|Ha] _ _]; try congruence.
    split; [reflexivity|]. apply before_validation_no_signing.
  - split.
    + intros e He. destruct (Run_thrown _ _ _ _ _ _ _ HR He) as (_ & _ & Hf & _).
      congruence.
    + exists (submitted input url). split.
      * now apply signed_requests_reached; [|right].
      * unfold submitted. apply String.eqb_neq in Hm. now rewrite Hm.
Qed.

Lemma body_rule_witness :
  (outcome (sign Sample.libraries Sample.world Sample.post_nothing None None)
   = Thrown (BadRequestException "Request body is missing")
   /\ signing_calls
        (calls (sign Sample.libraries Sample.world Sample.post_nothing None None))
      = [])
  /\ ((forall e,
         outcome (sign Sample.libraries Sample.world Sample.put_user None None)
         <> Thrown e)
      /\ (exists request,
            signed_requests
              (calls (sign Sample.libraries Sample.world Sample.put_user None None))
            = [request]
            /\ HttpRequest.body request = JSObject [("name", JSString "alice")])).
Proof.
  split.
  - apply (proj1 (body_rule Sample.libraries Sample.world Sample.post_nothing
                    None None (URL.mk "example-api.com" "/users")
                    eq_refl (or_introl eq_refl))).
    reflexivity.
  - apply (proj2 (body_rule Sample.libraries Sample.world Sample.put_user
                    None None (URL.mk "example-api.com" "/users/7")
                    eq_refl (or_intror eq_refl))).
    reflexivity.
Defined.

(** ** No other validation (lines 44 to 77) *)

(** C2, as stated, fails: a GET with an empty region, and one with an empty
    service, are signed like any other; the empty string ends up in the
    credential scope. *)
Lemma empty_region_counterexample :
  (RequestSignatureInput.region Sample.get_no_region = ""
   /\ outcome (sign Sample.libraries Sample.world Sample.get_no_region
                 (Some "headers") None)
      = Returned
          {| HttpRequest.hostname := "example-api.com";
             HttpRequest.path := "/users";
             HttpRequest.method := "GET";
             HttpRequest.headers :=
               {["authorization" :=
                   "AWS4-HMAC-SHA256 Credential=AKIDEXAMPLE//execute-api/aws4_request, SignedHeaders=host, Signature=0"]};
             HttpRequest.query := ∅;
             HttpRequest.body := JSUndefined |})
  /\ (RequestSignatureInput.service Sample.get_no_service = ""
      /\ outcome (sign Sample.libraries Sample.world Sample.get_no_service
                    (Some "headers") None)
         = Returned
             {| HttpRequest.hostname := "example-api.com";
                HttpRequest.path := "/users";
                HttpRequest.method := "GET";
                HttpRequest.headers :=
                  {["authorization" :=
                      "AWS4-HMAC-SHA256 Credential=AKIDEXAMPLE/eu-west-1//aws4_request, SignedHeaders=host, Signature=0"]};
                HttpRequest.query := ∅;
                HttpRequest.body := JSUndefined |}).
Proof. repeat split; vm_compute; reflexivity. Qed.

(** C2, amended: [sign] validates nothing but the body.  For every input
    whose address the [URL] constructor accepts and that passes the body rule
    (a GET, or a truthy body), whatever the service and the region, empty
    or not: [sign] throws no error of its own; it calls the signer once, built
    with exactly this service and this region; a failure to resolve the
    credentials propagates; and with resolved credentials, which [sign] never
    inspects, the outcome is the signer's. *)
Theorem body_is_the_only_validation L W input addSignatureTo logger url :
  new_URL L (address input) = Ok url ->
  body_accepted input ->
  let run := sign L W input addSignatureTo logger in
  let signer :=
    {| SignatureV4.credentials := credentialsToUse input;
       SignatureV4.service := RequestSignatureInput.service input;
       SignatureV4.region := RequestSignatureInput.region input;
       SignatureV4.sha256 := Sha256 |} in
  (forall e, outcome run <> Thrown e)
  /\ signers (calls run) = [signer]
  /\ (forall e,
        resolve W (credentialsToUse input) = Err e ->
        outcome run = Propagated e)
  /\ (forall c,
        resolve W (credentialsToUse input) = Ok c ->
        (addSignatureTo = Some "headers" ->
         outcome run
         = match sigv4_sign L c (now W) signer (submitted input url) with
           | Ok signed => Returned (delete_host signed)
           | Err e => Propagated e
           end)
        /\ (addSignatureTo <> Some "headers" ->
            outcome run
            = match sigv4_presign L c (now W) signer (submitted input url) with
              | Ok signed => Returned signed
              | Err e => Propagated e
              end)).
Proof.
  intros Hurl Hacc run signer.
  pose proof (sign_Run L W input addSignatureTo logger) as HR. fold run in HR.
  assert (Hbody : ~ (RequestSignatureInput.method input <> "GET"
                     /\ ToBoolean (RequestSignatureInput.body input) = false)).
  { intros [Hm Hb]. destruct Hacc; congruence. }
  split; [|split; [|split]].
  - intros e He.
    destruct (Run_thrown _ _ _ _ _ _ _ HR He) as (_ & Hm & Hb & _). tauto.
  - now apply (signed_requests_reached L W input addSignatureTo logger url).
  - intros e He.
    destruct HR as [e' He'|url' Hu Hm Hb|url' e' Hu _ _ Hans
                    |url' signed Hu _ _ Hans
                    |url' e' Hu _ _ Hans|url' signed Hu _ _ Hans];
      try congruence; try tauto;
      unfold signer_answer in Hans; cbn [new_signer SignatureV4.credentials] in Hans;
      rewrite He in Hans; unfold outcome; cbn [snd]; congruence.
  - intros c Hc.
    assert (Hu' : forall url', new_URL L (address input) = Ok url' -> url' = url)
      by (intros; congruence).
    split; intros Hmode;
      destruct HR as [e' He'|url' Hu Hm Hb|url' e' Hu _ Hmode' Hans
                      |url' signed Hu _ Hmode' Hans
                      |url' e' Hu _ Hmode' Hans|url' signed Hu _ Hmode' Hans];
      try congruence; try tauto;
      apply Hu' in Hu; subst url';
      unfold signer_answer in Hans; cbn [new_signer SignatureV4.credentials] in Hans;
      rewrite Hc in Hans; fold (new_signer input) in Hans;
      unfold outcome; cbn [snd]; unfold signer, new_signer in *;
      rewrite Hans; reflexivity.
Qed.

Lemma body_is_the_only_validation_witness :
  (forall e,
     outcome (sign Sample.libraries Sample.world Sample.get_no_region None None)
     <> Thrown e)
  /\ signers
       (calls (sign Sample.libraries Sample.world Sample.get_no_region None None))
     = [SignatureV4.mk defaultProvider "execute-api" "" Sha256].
Proof.
  pose proof (body_is_the_only_validation
                Sample.libraries Sample.world Sample.get_no_region None None
                (URL.mk "example-api.com" "/users")
                eq_refl (or_introl eq_refl)) as (H1 & H2 & _).
  split; [exact H1 | exact H2].
Defined.

(** ** The two modes (lines 79 to 85) *)

(** C3: when [sign] returns in mode [headers], what it returns is the
    signer's answer to [sign] with the [host] header deleted: no [host] key,
    every other header as the signer left it, every other field untouched.
    When it returns in any other mode, what it returns is the signer's answer
    to [presign] as it is. *)
Theorem host_removed_in_headers_mode L W input addSignatureTo logger result :
  outcome (sign L W input addSignatureTo logger) = Returned result ->
  exists url,
    new_URL L (address input) = Ok url
    /\ (addSignatureTo = Some "headers" ->
        exists signed,
          signer_answer W (sigv4_sign L) (new_signer input) (submitted input url)
          = Ok signed
          /\ HttpRequest.headers result !! "host" = None
          /\ (forall k, k <> "host" ->
                HttpRequest.headers result !! k = HttpRequest.headers signed !! k)
          /\ HttpRequest.hostname result = HttpRequest.hostname signed
          /\ HttpRequest.path result = HttpRequest.path signed
          /\ HttpRequest.method result = HttpRequest.method signed
          /\ HttpRequest.query result = HttpRequest.query signed
          /\ HttpRequest.body result = HttpRequest.body signed)
    /\ (addSignatureTo <> Some "headers" ->
        signer_answer W (sigv4_presign L) (new_signer input) (submitted input url)
        = Ok result).
Proof.
  pose proof (sign_Run L W input addSignatureTo logger) as HR. revert HR.
  generalize (sign L W input addSignatureTo logger). intros m HR.
  destruct HR as [e He|url Hu Hm Hb|url e Hu _ Hmode Hans
                  |url signed Hu _ Hmode Hans
                  |url e Hu _ Hmode Hans|url signed Hu _ Hmode Hans];
    unfold outcome; cbn [snd]; intros Ho; try discriminate;
    injection Ho as <-; exists url; (split; [exact Hu|]); split; intros Hmode';
    try contradiction.
  - exists signed. split; [exact Hans|].
    unfold delete_host, HttpRequest.set_headers. cbn.
    split; [apply lookup_delete_eq|].
    split; [intros k Hk; now apply lookup_delete_ne|].
    repeat split.
  - exact Hans.
Qed.

Lemma host_removed_in_headers_mode_witness :
  (exists signed,
     HttpRequest.headers signed !! "host" = Some "example-api.com"
     /\ outcome (sign Sample.libraries Sample.world Sample.get_loaded
                   (Some "headers") None)
        = Returned (delete_host signed)
     /\ HttpRequest.headers (delete_host signed) !! "host" = None
     /\ HttpRequest.headers (delete_host signed) !! "accept"
        = HttpRequest.headers signed !! "accept")
  /\ (exists signed,
        outcome (sign Sample.libraries Sample.world Sample.get_loaded
                   (Some "query") None)
        = Returned signed
        /\ HttpRequest.headers signed !! "host" = Some "example-api.com").
Proof.
  split.
  - destruct (host_removed_in_headers_mode
                Sample.libraries Sample.world Sample.get_loaded
                (Some "headers") None _ eq_refl)
      as (url & Hu & Hh & _).
    destruct (Hh eq_refl) as (signed & Hans & Hhost & Hother & _).
    injection Hu as <-. injection Hans as <-.
    eexists. split; [|split; [reflexivity|split]].
    + reflexivity.
    + exact Hhost.
    + apply Hother. discriminate.
  - destruct (host_removed_in_headers_mode
                Sample.libraries Sample.world Sample.get_loaded
                (Some "query") None _ eq_refl)
      as (url & Hu & _ & Hq).
    eexists. split; [reflexivity|]. reflexivity.
Defined.

(** ** The error surface *)

(** C4: an error thrown by [sign] itself is the [BadRequestException] of
    models.ts, built with the message "Request body is missing": its class is
    [BadRequestException] and its name is the string "BadRequestException".
    Any other error that comes out of [sign] comes from a collaborator. *)
Theorem own_error_is_BadRequestException L W input addSignatureTo logger e :
  outcome (sign L W input addSignatureTo logger) = Thrown e ->
  e = BadRequestException "Request body is missing"
  /\ Error.ctor e = ErrorClass_BadRequestException
  /\ Error.name e = "BadRequestException"
  /\ Error.message e = "Request body is missing".
Proof.
  intros He.
  destruct (Run_thrown _ _ _ _ _ _ _ (sign_Run L W input addSignatureTo logger) He)
    as (-> & _).
  repeat split.
Qed.

Lemma own_error_is_BadRequestException_witness :
  Error.name (BadRequestException "Request body is missing") = "BadRequestException"
  /\ outcome (sign Sample.libraries Sample.world Sample.post_nothing None None)
     = Thrown (BadRequestException "Request body is missing").
Proof.
  pose proof (own_error_is_BadRequestException
                Sample.libraries Sample.world Sample.post_nothing None None
                (BadRequestException "Request body is missing") eq_refl)
    as (_ & _ & Hname & _).
  split; [exact Hname | reflexivity].
Defined.

(** ** The credential source (lines 68 to 75) *)

(** C5, as stated, fails: an input whose role ARN is present, and is the empty
    string, is signed with the default provider chain. *)
Lemma empty_role_counterexample :
  RequestSignatureInput.roleArn Sample.get_empty_role = Some ""
  /\ signers (calls (sign Sample.libraries Sample.world Sample.get_empty_role
                       None None))
     = [SignatureV4.mk defaultProvider "execute-api" "eu-west-1" Sha256].
Proof. split; reflexivity. Qed.

(** C5, amended: the credential source is selected by the truthiness of the
    role ARN alone.  Every signer that [sign] builds has, for a role ARN that
    is present and not the empty string, the temporary credentials of that
    role with a session of 3600 seconds, and, for a role ARN that is absent or
    the empty string, the default provider chain. *)
Theorem credential_source L W input addSignatureTo logger signer :
  signer ∈ signers (calls (sign L W input addSignatureTo logger)) ->
  SignatureV4.credentials signer
  = match RequestSignatureInput.roleArn input with
    | Some "" | None => defaultProvider
    | Some arn =>
        fromTemporaryCredentials {| RoleArn := arn; DurationSeconds := 3600 |}
    end.
Proof.
  rewrite signers_signing.
  destruct (Run_signing_calls _ _ _ _ _ _ (sign_Run L W input addSignatureTo logger))
    as [->|(url & _ & _ & [[_ ->]|[_ ->]])]; simpl.
  - intros H. inversion H.
  - intros ->%list_elem_of_singleton. simpl. unfold credentialsToUse.
    destruct (RequestSignatureInput.roleArn input) as [[|c arn]|]; reflexivity.
  - intros ->%list_elem_of_singleton. simpl. unfold credentialsToUse.
    destruct (RequestSignatureInput.roleArn input) as [[|c arn]|]; reflexivity.
Qed.

Lemma credential_source_witness :
  let signer :=
    SignatureV4.mk
      (fromTemporaryCredentials
         {| RoleArn := "arn:aws:iam::1111111111:role/example";
            DurationSeconds := 3600 |})
      "execute-api" "eu-west-1" Sha256 in
  signer ∈ signers (calls (sign Sample.libraries Sample.world Sample.get_users
                             None None))
  /\ SignatureV4.credentials signer
     = fromTemporaryCredentials
         {| RoleArn := "arn:aws:iam::1111111111:role/example";
            DurationSeconds := 3600 |}.
Proof.
  intros signer.
  assert (Hin : signer ∈ signers (calls (sign Sample.libraries Sample.world
                                           Sample.get_users None None)))
    by (vm_compute; apply list_elem_of_here).
  split; [exact Hin|].
  exact (credential_source Sample.libraries Sample.world Sample.get_users
           None None signer Hin).
Defined.

(** ** The world and the result *)

Lemma signer_answer_agree W1 W2 f signer request :
  resolve W1 (SignatureV4.credentials signer)
  = resolve W2 (SignatureV4.credentials signer) ->
  now W1 = now W2 ->
  signer_answer W1 f signer request = signer_answer W2 f signer request.
Proof. intros Hr Hn. unfold signer_answer. now rewrite Hr, Hn. Qed.

(** Two runs on the same arguments, whose signers got the same answers, end
    the same way after the same calls to the signer, with or without a
    logger. *)
Lemma Run_functional L W1 W2 input addSignatureTo logger1 logger2 m1 m2 :
  (forall f request,
     signer_answer W1 f (new_signer input) request
     = signer_answer W2 f (new_signer input) request) ->
  Run L W1 input addSignatureTo logger1 m1 ->
  Run L W2 input addSignatureTo logger2 m2 ->
  outcome m1 = outcome m2
  /\ signing_calls (calls m1) = signing_calls (calls m2).
Proof.
  intros Hans HR1 HR2.
  destruct HR1 as [e He|url Hu Hm Hb|url e Hu Ha Hmode H1|url signed Hu Ha Hmode H1
                   |url e Hu Ha Hmode H1|url signed Hu Ha Hmode H1];
    destruct HR2 as [e' He'|url' Hu' Hm' Hb'|url' e' Hu' Ha' Hmode' H2
                     |url' signed' Hu' Ha' Hmode' H2
                     |url' e' Hu' Ha' Hmode' H2|url' signed' Hu' Ha' Hmode' H2];
    try congruence;
    try (destruct Ha; congruence); try (destruct Ha'; congruence);
    unfold outcome, calls; cbn [fst snd];
    rewrite ?signing_last, ?signing_around by reflexivity;
    try (assert (url' = url) by congruence; subst url';
         rewrite Hans in H1; rewrite H1 in H2; split; congruence).
  - split; [congruence|reflexivity].
  - split; [reflexivity|].
    destruct (before_validation_no_signing input logger1 url) as [-> _].
    now destruct (before_validation_no_signing input logger2 url') as [-> _].
Qed.

(** What of the world reaches the result: two invocations of [sign] on the
    same input in the same mode, with the same libraries, in two worlds that
    resolve the selected credential provider to the same credentials and show
    the same time, have the same outcome and make the same calls to the
    signer.  What the other provider resolves to, and the logger, do not
    matter. *)
Lemma world_reaches_result_through_signer L W1 W2 input addSignatureTo logger1 logger2 :
  resolve W1 (credentialsToUse input) = resolve W2 (credentialsToUse input) ->
  now W1 = now W2 ->
  outcome (sign L W1 input addSignatureTo logger1)
  = outcome (sign L W2 input addSignatureTo logger2)
  /\ signing_calls (calls (sign L W1 input addSignatureTo logger1))
     = signing_calls (calls (sign L W2 input addSignatureTo logger2)).
Proof.
  intros Hr Hn.
  apply (Run_functional L W1 W2 input addSignatureTo logger1 logger2).
  - intros f request. now apply signer_answer_agree.
  - apply sign_Run.
  - apply sign_Run.
Qed.

(** ** The request that is built (lines 45 to 54) *)

Lemma append_empty s : s +:+ "" = s.
Proof.
  induction s as [|c s IH]; [reflexivity|].
  change (String c (s +:+ "") = String c s). now rewrite IH.
Qed.

Lemma string_or_default o : string_or o "" = default "" o.
Proof. destruct o as [[|c s]|]; reflexivity. Qed.

(** With no path, or with the empty path, nothing follows the host in the
    address. *)
Lemma address_without_path input :
  RequestSignatureInput.path input = None
  \/ RequestSignatureInput.path input = Some "" ->
  address input = "https://" +:+ RequestSignatureInput.hostname input.
Proof.
  intros [H|H]; unfold address; rewrite H; simpl; now rewrite append_empty.
Qed.

(** The only requests handed to the signer are [submitted] ones. *)
Lemma signed_requests_submitted L W input addSignatureTo logger request :
  request ∈ signed_requests (calls (sign L W input addSignatureTo logger)) ->
  exists url,
    new_URL L (address input) = Ok url
    /\ body_accepted input
    /\ request = submitted input url.
Proof.
  rewrite signed_requests_signing.
  destruct (Run_signing_calls _ _ _ _ _ _ (sign_Run L W input addSignatureTo logger))
    as [->|(url & Hu & Ha & [[_ ->]|[_ ->]])]; simpl.
  - intros H. inversion H.
  - intros ->%list_elem_of_singleton. eauto.
  - intros ->%list_elem_of_singleton. eauto.
Qed.

(** Setting the query and the body leaves the rest of the request alone. *)
Lemma submitted_frame input url :
  HttpRequest.hostname (submitted input url) = URL.hostname url
  /\ HttpRequest.path (submitted input url) = URL.pathname url
  /\ HttpRequest.headers (submitted input url)
     = HttpRequest.headers (initial_request input url).
Proof.
  unfold submitted, with_query.
  destruct (String.eqb (RequestSignatureInput.method input) "GET");
    destruct (RequestSignatureInput.query input); repeat split.
Qed.

(** C7, as stated, fails: the host name is documented as a base URL, and a
    base URL with a path of its own gives the request that path, whether the
    input has a path or not. *)
Lemma empty_path_counterexample :
  RequestSignatureInput.path Sample.get_base = None
  /\ HttpRequest.path <$>
       signed_requests
         (calls (sign Sample.libraries Sample.world Sample.get_base None None))
     = ["/v1"].
Proof. split; reflexivity. Qed.

(** With no path, or the empty path, the address that is parsed is [https://]
    followed by the host name and nothing else, and the request submitted to
    the signer has the path name that the [URL] constructor reports for it. *)
Lemma empty_path_adds_nothing L W input addSignatureTo logger request :
  RequestSignatureInput.path input = None
  \/ RequestSignatureInput.path input = Some "" ->
  request ∈ signed_requests (calls (sign L W input addSignatureTo logger)) ->
  exists url,
    new_URL L ("https://" +:+ RequestSignatureInput.hostname input) = Ok url
    /\ HttpRequest.path request = URL.pathname url.
Proof.
  intros Hpath Hin.
  destruct (signed_requests_submitted _ _ _ _ _ _ Hin) as (url & Hu & _ & ->).
  exists url. rewrite <- (address_without_path input Hpath).
  split; [exact Hu|]. apply submitted_frame.
Qed.

(** The sample parser reports the root for every bare host name. *)
Lemma substring_all s : String.substring 0 (String.length s) s = s.
Proof. induction s as [|c s IH]; simpl; [reflexivity|]. now rewrite IH. Qed.

Lemma split_bare_host h : bare_host h = true -> Sample.split_host h = (h, "").
Proof.
  induction h as [|c h IH]; [reflexivity|]. simpl.
  intros [Hc Hh]%andb_true_iff. apply negb_true_iff, orb_false_iff in Hc as [Hc _].
  rewrite Hc, (IH Hh). reflexivity.
Qed.

Lemma sample_root_for_bare_host : root_for_bare_host Sample.libraries.
Proof.
  intros h url Hbare. cbn [new_URL Sample.libraries]. unfold Sample.URL_parse.
  change ("https://" +:+ h)
    with (String "h" (String "t" (String "t" (String "p" (String "s"
            (String ":" (String "/" (String "/" h)))))))).
  cbn. replace (String.prefix "" h) with true by now destruct h.
  rewrite Nat.sub_0_r, substring_all, (split_bare_host h Hbare).
  destruct (String.eqb h ""); [discriminate|].
  intros [= <-]. reflexivity.
Qed.

(** C7, amended: with a [URL] constructor that reports the root for an
    address that ends with its host, for every input whose path is absent or
    the empty string and whose host name is bare, with no slash or backslash
    in it, every request submitted to the signer has the path [/]. *)
Theorem empty_path_is_root L W input addSignatureTo logger request :
  root_for_bare_host L ->
  RequestSignatureInput.path input = None
  \/ RequestSignatureInput.path input = Some "" ->
  bare_host (RequestSignatureInput.hostname input) = true ->
  request ∈ signed_requests (calls (sign L W input addSignatureTo logger)) ->
  HttpRequest.path request = "/".
Proof.
  intros Hroot Hpath Hbare Hin.
  destruct (empty_path_adds_nothing L W input addSignatureTo logger request
              Hpath Hin) as (url & Hurl & ->).
  exact (Hroot _ url Hbare Hurl).
Qed.

Lemma empty_path_is_root_witness :
  exists request,
    signed_requests
      (calls (sign Sample.libraries Sample.world Sample.get_root None None))
    = [request]
    /\ HttpRequest.path request = "/".
Proof.
  eexists. split; [reflexivity|].
  apply (empty_path_is_root Sample.libraries Sample.world Sample.get_root
           None None).
  - exact sample_root_for_bare_host.
  - left. reflexivity.
  - reflexivity.
  - apply list_elem_of_here.
Defined.

(** C8: for every input whose method is GET, whatever its body, [sign] throws
    no error of its own, every request handed to the signer has the
    [undefined] body the constructor gave it, and a request is handed to the
    signer as soon as the address is accepted. *)
Theorem GET_is_signed_without_body L W input addSignatureTo logger :
  RequestSignatureInput.method input = "GET" ->
  (forall e, outcome (sign L W input addSignatureTo logger) <> Thrown e)
  /\ (forall request,
        request ∈ signed_requests (calls (sign L W input addSignatureTo logger)) ->
        HttpRequest.body request = JSUndefined)
  /\ (forall url,
        new_URL L (address input) = Ok url ->
        exists request,
          signed_requests (calls (sign L W input addSignatureTo logger))
          = [request]).
Proof.
  intros Hget. split; [|split].
  - intros e He.
    destruct (Run_thrown _ _ _ _ _ _ _ (sign_Run L W input addSignatureTo logger) He)
      as (_ & Hm & _).
    contradiction.
  - intros request Hin.
    destruct (signed_requests_submitted _ _ _ _ _ _ Hin) as (url & _ & _ & ->).
    unfold submitted, with_query. rewrite Hget. simpl.
    now destruct (RequestSignatureInput.query input).
  - intros url Hurl. exists (submitted input url).
    now apply signed_requests_reached; [|left].
Qed.

Lemma GET_is_signed_without_body_witness :
  RequestSignatureInput.body Sample.get_loaded = JSString "ignored"
  /\ (exists request,
        signed_requests
          (calls (sign Sample.libraries Sample.world Sample.get_loaded None None))
        = [request]
        /\ HttpRequest.body request = JSUndefined)
  /\ (forall e,
        outcome (sign Sample.libraries Sample.world Sample.get_users None None)
        <> Thrown e).
Proof.
  split; [reflexivity|]. split.
  - eexists. split; [reflexivity|].
    apply (proj1 (proj2 (GET_is_signed_without_body
                           Sample.libraries Sample.world Sample.get_loaded
                           None None eq_refl))).
    apply list_elem_of_here.
  - apply (proj1 (GET_is_signed_without_body
                    Sample.libraries Sample.world Sample.get_users None None
                    eq_refl)).
Defined.

(** C9: when the [URL] constructor accepts
    [https://{input.hostname}{input.path}] (nothing for an absent path), the
    request built from it has the parsed host name as its [host] header,
    whatever [host] the caller supplied, and every other header as the caller
    supplied it; this is the request that is logged before signing, and its
    headers are those of every request handed to the signer. *)
Theorem host_header_from_address L W input addSignatureTo logger url :
  new_URL L ("https://" +:+ RequestSignatureInput.hostname input
                        +:+ default "" (RequestSignatureInput.path input))
  = Ok url ->
  let request := initial_request input url in
  HttpRequest.headers request !! "host" = Some (URL.hostname url)
  /\ (forall k, k <> "host" ->
        HttpRequest.headers request !! k
        = default ∅ (RequestSignatureInput.headers input) !! k)
  /\ (forall l, logger = Some l ->
        call_debug l "AWSRequestSignatureV4 | Pre-signed request" request
        ∈ calls (sign L W input addSignatureTo logger))
  /\ (forall submitted,
        submitted ∈ signed_requests (calls (sign L W input addSignatureTo logger)) ->
        HttpRequest.headers submitted = HttpRequest.headers request).
Proof.
  rewrite <- string_or_default. fold (address input). intros Hurl request.
  split; [apply lookup_insert_eq|]. split; [|split].
  - intros k Hk. unfold request, initial_request, new_HttpRequest. cbn.
    rewrite lookup_insert_ne by congruence.
    now destruct (RequestSignatureInput.headers input).
  - intros l ->.
    assert (Hpre : forall t,
               call_debug l msg_pre request
               ∈ before_validation input (Some l) url ++ t).
    { intros t. apply elem_of_app. left. unfold before_validation, logged.
      apply list_elem_of_further, list_elem_of_here. }
    destruct (sign_Run L W input addSignatureTo (Some l))
      as [e He|url' Hu _ _|url' e Hu _ _ _|url' signed Hu _ _ _
          |url' e Hu _ _ _|url' signed Hu _ _ _];
      try congruence;
      assert (url' = url) by congruence; subst url'; unfold calls; cbn [fst];
      apply Hpre.
  - intros r Hin.
    destruct (signed_requests_submitted _ _ _ _ _ _ Hin) as (url' & Hu & _ & ->).
    assert (url' = url) by congruence; subst url'. apply submitted_frame.
Qed.

Lemma host_header_from_address_witness :
  RequestSignatureInput.headers Sample.get_loaded
  = Some (<["host" := "elsewhere.example"]> {["accept" := "application/json"]})
  /\ HttpRequest.headers <$>
       signed_requests
         (calls (sign Sample.libraries Sample.world Sample.get_loaded None None))
     = [<["host" := "example-api.com"]> {["accept" := "application/json"]}].
Proof.
  split; [reflexivity|].
  pose proof (host_header_from_address
                Sample.libraries Sample.world Sample.get_loaded None None
                (URL.mk "example-api.com" "/graphql") eq_refl)
    as (_ & _ & _ & Hsub).
  assert (Hin : submitted Sample.get_loaded (URL.mk "example-api.com" "/graphql")
                ∈ signed_requests
                    (calls (sign Sample.libraries Sample.world Sample.get_loaded
                              None None)))
    by apply list_elem_of_here.
  specialize (Hsub _ Hin). vm_compute. reflexivity.
Defined.

(** C10: [sign] never calls the signer through [sign] unless the mode is
    exactly [headers], and never through [presign] when it is.  Once the
    address is accepted and the body rule is passed, the signer is called
    exactly once.  When the mode is exactly [headers] it is called through
    [sign], and what [sign] returns is its answer without the key [host] and
    with every other header as answered.  When the mode is omitted or is
    anything else it is called through [presign], and what [sign] returns is
    its answer as it is. *)
Theorem presign_unless_headers L W input addSignatureTo logger :
  (forall c,
     c ∈ signing_calls (calls (sign L W input addSignatureTo logger)) ->
     if is_sign c then addSignatureTo = Some "headers"
     else is_presign c = true /\ addSignatureTo <> Some "headers")
  /\ (forall url,
        new_URL L (address input) = Ok url ->
        body_accepted input ->
        (addSignatureTo = Some "headers" ->
         signing_calls (calls (sign L W input addSignatureTo logger))
         = [call_sign (new_signer input) (submitted input url)]
         /\ (forall result,
               outcome (sign L W input addSignatureTo logger) = Returned result ->
               HttpRequest.headers result !! "host" = None
               /\ exists signed,
                    signer_answer W (sigv4_sign L) (new_signer input)
                      (submitted input url) = Ok signed
                    /\ forall k, k <> "host" ->
                         HttpRequest.headers result !! k
                         = HttpRequest.headers signed !! k))
        /\ (addSignatureTo <> Some "headers" ->
            signing_calls (calls (sign L W input addSignatureTo logger))
            = [call_presign (new_signer input) (submitted input url)]
            /\ (forall result,
                  outcome (sign L W input addSignatureTo logger) = Returned result ->
                  signer_answer W (sigv4_presign L) (new_signer input)
                    (submitted input url) = Ok result))).
Proof.
  split.
  - intros c Hc.
    destruct (Run_signing_calls _ _ _ _ _ _
                (sign_Run L W input addSignatureTo logger))
      as [Hnone|(url' & _ & _ & [[Hmode Hone]|[Hmode Hone]])];
      rewrite ?Hnone, ?Hone in Hc.
    + inversion Hc.
    + apply list_elem_of_singleton in Hc as ->. exact Hmode.
    + apply list_elem_of_singleton in Hc as ->. simpl. auto.
  - intros url Hurl Hacc.
    destruct (signer_reached L W input addSignatureTo logger url Hurl Hacc)
      as [[Hmode Hcalls]|[Hmode Hcalls]]; split; intros Hmode';
      try congruence; (split; [exact Hcalls|]); clear Hcalls;
      intros result; pose proof (sign_Run L W input addSignatureTo logger) as HR;
      revert HR; generalize (sign L W input addSignatureTo logger); intros m HR;
      destruct HR as [e He|url' Hu Hm Hb|url' e Hu _ Hm' Hans
                      |url' signed Hu _ Hm' Hans
                      |url' e Hu _ Hm' Hans|url' signed Hu _ Hm' Hans];
      unfold outcome; cbn [snd]; intros Ho; try discriminate;
      try congruence; injection Ho as <-;
      assert (url' = url) by congruence; subst url'.
    split; [apply lookup_delete_eq|].
    exists signed. split; [exact Hans|].
    intros k Hk. now apply lookup_delete_ne.
Qed.

Lemma presign_unless_headers_witness :
  (is_sign <$> signing_calls
                 (calls (sign Sample.libraries Sample.world Sample.get_users
                           (Some "headers") None)) = [true]
   /\ exists result signed,
        outcome (sign Sample.libraries Sample.world Sample.get_users
                   (Some "headers") None) = Returned result
        /\ signer_answer Sample.world Sample.mark_headers
             (new_signer Sample.get_users)
             (submitted Sample.get_users (URL.mk "example-api.com" "/users"))
           = Ok signed
        /\ HttpRequest.headers signed !! "host" = Some "example-api.com"
        /\ HttpRequest.headers result !! "host" = None)
  /\ (forall mode,
        mode = None \/ mode = Some "query" \/ mode = Some "Headers" ->
        is_presign <$> signing_calls
                         (calls (sign Sample.libraries Sample.world
                                   Sample.get_users mode None)) = [true]
        /\ exists result,
             outcome (sign Sample.libraries Sample.world Sample.get_users
                        mode None) = Returned result
             /\ HttpRequest.headers result !! "host" = Some "example-api.com").
Proof.
  pose (url := URL.mk "example-api.com" "/users").
  pose proof (fun mode =>
                proj2 (presign_unless_headers Sample.libraries Sample.world
                         Sample.get_users mode None)
                  url eq_refl (or_introl eq_refl))
    as H.
  split.
  - destruct (proj1 (H (Some "headers")) eq_refl) as [Hcalls Hout].
    split; [rewrite Hcalls; reflexivity|].
    destruct (Hout _ eq_refl) as (Hhost & signed & Hans & _).
    eexists. exists signed. split; [reflexivity|]. split; [exact Hans|].
    split; [|exact Hhost].
    injection Hans as <-. reflexivity.
  - intros mode Hmode.
    assert (Hne : mode <> Some "headers")
      by (destruct Hmode as [->|[->| ->]]; discriminate).
    destruct (proj2 (H mode) Hne) as [Hcalls Hout].
    split; [rewrite Hcalls; reflexivity|].
    destruct Hmode as [->|[->| ->]]; eexists; (split; [reflexivity|]);
      reflexivity.
Defined.

(** * Further properties of [sign] *)

(** ** What reaches the signer *)

(** X1: every request handed to the signer carries the query dictionary of the
    input as it is, and the empty dictionary when the input has none. *)
Theorem query_reaches_signer L W input addSignatureTo logger request :
  request ∈ signed_requests (calls (sign L W input addSignatureTo logger)) ->
  HttpRequest.query request = default ∅ (RequestSignatureInput.query input).
Proof.
  intros Hin.
  destruct (signed_requests_submitted _ _ _ _ _ _ Hin) as (url & _ & _ & ->).
  unfold submitted, with_query.
  destruct (String.eqb (RequestSignatureInput.method input) "GET");
    now destruct (RequestSignatureInput.query input).
Qed.

Lemma query_reaches_signer_witness :
  exists request,
    request ∈ signed_requests
                (calls (sign Sample.libraries Sample.world sample_post_order
                          (Some "headers") None))
    /\ HttpRequest.query request = {["dryRun" := "true"]}.
Proof.
  eexists. split.
  - vm_compute. apply list_elem_of_here.
  - apply (query_reaches_signer Sample.libraries Sample.world sample_post_order
             (Some "headers") None).
    apply list_elem_of_here.
Defined.

(** X2: every request handed to the signer names the same host twice: its
    [host] header is its own [hostname], whatever headers the caller
    supplied. *)
Theorem host_header_is_hostname L W input addSignatureTo logger request :
  request ∈ signed_requests (calls (sign L W input addSignatureTo logger)) ->
  HttpRequest.headers request !! "host" = Some (HttpRequest.hostname request).
Proof.
  intros Hin.
  destruct (signed_requests_submitted _ _ _ _ _ _ Hin) as (url & _ & _ & ->).
  destruct (submitted_frame input url) as (-> & _ & ->).
  apply lookup_insert_eq.
Qed.

Lemma host_header_is_hostname_witness :
  exists request,
    request ∈ signed_requests
                (calls (sign Sample.libraries Sample.world Sample.get_loaded
                          None None))
    /\ HttpRequest.hostname request = "example-api.com"
    /\ HttpRequest.headers request !! "host" = Some "example-api.com".
Proof.
  eexists. split; [|split].
  - vm_compute. apply list_elem_of_here.
  - reflexivity.
  - apply (host_header_is_hostname Sample.libraries Sample.world
             Sample.get_loaded None None).
    apply list_elem_of_here.
Defined.

(** ** The address (line 45) *)

(** X3: the host name and the path are glued together before they are parsed,
    so [sign] cannot tell where one ends and the other begins: two inputs
    that agree on the concatenation and on every other field run alike, call
    for call, to the same outcome. *)
Theorem address_split_is_invisible L W i1 i2 addSignatureTo logger :
  RequestSignatureInput.hostname i1 +:+ default "" (RequestSignatureInput.path i1)
  = RequestSignatureInput.hostname i2 +:+ default "" (RequestSignatureInput.path i2) ->
  same_but_address i1 i2 ->
  sign L W i1 addSignatureTo logger = sign L W i2 addSignatureTo logger.
Proof.
  intros Haddr (Hs & Hr & Ha & Hm & Hb & Hq & Hh).
  assert (Haddress : address i1 = address i2).
  { unfold address. rewrite !string_or_default. now rewrite Haddr. }
  unfold sign, initial_request, with_query, with_body, new_signer,
    credentialsToUse.
  now rewrite Haddress, Hs, Hr, Ha, Hm, Hb, Hq, Hh.
Qed.

Lemma address_split_is_invisible_witness :
  RequestSignatureInput.hostname Sample.get_base = "example-api.com/v1"
  /\ RequestSignatureInput.hostname sample_get_v1 = "example-api.com"
  /\ sign Sample.libraries Sample.world Sample.get_base (Some "headers") None
     = sign Sample.libraries Sample.world sample_get_v1 (Some "headers") None.
Proof.
  split; [reflexivity|]. split; [reflexivity|].
  apply address_split_is_invisible; [reflexivity|].
  repeat split.
Defined.

(** ** Logging (lines 55 and 87) *)

Lemma debug_entries_app t1 t2 :
  debug_entries (t1 ++ t2) = debug_entries t1 ++ debug_entries t2.
Proof. apply omap_app. Qed.

(** X4: when [sign] returns with a logger at hand, it has logged twice: first
    the request as built from the address, before the query and the body were
    set, so with an empty query and no body whatever the input has; then the
    very request it returns, in headers mode with its [host] header already
    deleted. *)
Theorem success_is_logged_twice L W input addSignatureTo l result :
  outcome (sign L W input addSignatureTo (Some l)) = Returned result ->
  exists url,
    new_URL L (address input) = Ok url
    /\ debug_entries (calls (sign L W input addSignatureTo (Some l)))
       = [("AWSRequestSignatureV4 | Pre-signed request", initial_request input url);
          ("AWSRequestSignatureV4 | Signed request", result)]
    /\ HttpRequest.query (initial_request input url) = ∅
    /\ HttpRequest.body (initial_request input url) = JSUndefined.
Proof.
  pose proof (sign_Run L W input addSignatureTo (Some l)) as HR. revert HR.
  generalize (sign L W input addSignatureTo (Some l)). intros m HR.
  destruct HR as [e He|url Hu Hm Hb|url e Hu _ _ _|url signed Hu _ _ _
                  |url e Hu _ _ _|url signed Hu _ _ _];
    unfold outcome, calls; cbn [fst snd]; intros Ho; try discriminate;
    injection Ho as <-; exists url; (split; [exact Hu|]);
    rewrite debug_entries_app; repeat split.
Qed.

Lemma success_is_logged_twice_witness :
  exists url,
    Sample.URL_parse (address sample_post_order) = Ok url
    /\ (HttpRequest.query ∘ snd) <$>
         debug_entries
           (calls (sign Sample.libraries Sample.world sample_post_order
                     None (Some sample_logger)))
       = [∅; <["X-Amz-Signature" := "0"]>
               (<["X-Amz-SignedHeaders" := "host"]>
                  (<["X-Amz-Credential" :=
                       "AKIDEXAMPLE/eu-west-1/execute-api/aws4_request"]>
                     (<["X-Amz-Algorithm" := "AWS4-HMAC-SHA256"]>
                        {["dryRun" := "true"]})))].
Proof.
  destruct (success_is_logged_twice Sample.libraries Sample.world
              sample_post_order None sample_logger _ eq_refl)
    as (url & Hu & Hlog & _).
  exists url. split; [exact Hu|].
  rewrite Hlog. injection Hu as <-. vm_compute. reflexivity.
Defined.

(** X5: when [sign] does not return, the signed request is never logged: the
    log holds the one entry made before validation, or nothing at all when
    the address was rejected. *)
Theorem failure_is_logged_once_at_most L W input addSignatureTo l :
  (forall result,
     outcome (sign L W input addSignatureTo (Some l)) <> Returned result) ->
  debug_entries (calls (sign L W input addSignatureTo (Some l)))
  = match new_URL L (address input) with
    | Ok url =>
        [("AWSRequestSignatureV4 | Pre-signed request", initial_request input url)]
    | Err _ => []
    end.
Proof.
  pose proof (sign_Run L W input addSignatureTo (Some l)) as HR. revert HR.
  generalize (sign L W input addSignatureTo (Some l)). intros m HR.
  destruct HR as [e He|url Hu Hm Hb|url e Hu _ _ _|url signed Hu _ _ _
                  |url e Hu _ _ _|url signed Hu _ _ _];
    unfold outcome, calls; cbn [fst snd]; intros Hfail;
    try (rewrite He); try (rewrite Hu);
    rewrite ?debug_entries_app; try reflexivity;
    exfalso; eapply Hfail; reflexivity.
Qed.

Lemma failure_is_logged_once_at_most_witness :
  outcome (sign Sample.libraries Sample.world Sample.post_nothing
             None (Some sample_logger))
  = Thrown (BadRequestException "Request body is missing")
  /\ fst <$> debug_entries
               (calls (sign Sample.libraries Sample.world Sample.post_nothing
                         None (Some sample_logger)))
     = ["AWSRequestSignatureV4 | Pre-signed request"]
  /\ debug_entries
       (calls (sign Sample.libraries Sample.world Sample.post_nowhere
                 None (Some sample_logger)))
     = [].
Proof.
  split; [reflexivity|]. split.
  - rewrite (failure_is_logged_once_at_most Sample.libraries Sample.world
               Sample.post_nothing None sample_logger) by discriminate.
    reflexivity.
  - rewrite (failure_is_logged_once_at_most Sample.libraries Sample.world
               Sample.post_nowhere None sample_logger) by discriminate.
    reflexivity.
Defined.

(** ** Failing early *)

(** X6: a run that stops at the address or at the body rule has asked
    nothing of the world: no credentials were resolved, no clock was read, and
    the mode was never looked at.  In any two worlds and any two modes the run
    is the same, call for call. *)
Theorem rejection_ignores_world_and_mode L W1 W2 input mode1 mode2 logger :
  (exists e, new_URL L (address input) = Err e) \/ body_missing input = true ->
  sign L W1 input mode1 logger = sign L W2 input mode2 logger.
Proof.
  intros Hstop. unfold sign, URL_new, await.
  destruct (new_URL L (address input)) as [url|e] eqn:Hurl; [|reflexivity].
  destruct Hstop as [[e He]|Hmiss]; [discriminate|].
  apply andb_true_iff in Hmiss as [Hm Hb].
  apply negb_true_iff in Hm, Hb. apply String.eqb_neq in Hm.
  simpl. rewrite !debug_logged, (with_body_missing _ _ Hm Hb). reflexivity.
Qed.

Lemma rejection_ignores_world_and_mode_witness :
  sign Sample.libraries Sample.world Sample.post_empty_string
    (Some "headers") (Some sample_logger)
  = sign Sample.libraries Sample.world_without_default Sample.post_empty_string
      None (Some sample_logger)
  /\ sign Sample.libraries Sample.world Sample.post_nowhere (Some "headers") None
     = sign Sample.libraries Sample.world_without_default Sample.post_nowhere
         (Some "query") None.
Proof.
  split.
  - apply rejection_ignores_world_and_mode. right. reflexivity.
  - apply rejection_ignores_world_and_mode. left. eexists. reflexivity.
Defined.

(** ** The order and number of calls *)

(** X7: in every run the [URL] constructor is called first, once, on the
    address of the input, and the signer is called at most once; a run that
    returns has called the signer exactly once, a run that throws an error of
    [sign]'s own has not called it. *)
Theorem call_discipline L W input addSignatureTo logger :
  let run := sign L W input addSignatureTo logger in
  head (calls run) = Some (call_URL (address input))
  /\ List.filter is_URL (calls run) = [call_URL (address input)]
  /\ length (signing_calls (calls run)) <= 1
  /\ (forall result,
        outcome run = Returned result -> length (signing_calls (calls run)) = 1)
  /\ (forall e, outcome run = Thrown e -> signing_calls (calls run) = []).
Proof.
  intros run. subst run.
  destruct (sign_Run L W input addSignatureTo logger)
    as [e He|url Hu Hm Hb|url e Hu _ _ _|url signed Hu _ _ _
        |url e Hu _ _ _|url signed Hu _ _ _];
    unfold calls, outcome; cbn [fst snd];
    rewrite ?signing_last, ?signing_around by reflexivity;
    destruct logger; cbn; repeat split; intros; try discriminate; lia.
Qed.

(** The requests and the signers of a run, in closed form. *)
Lemma signed_requests_closed_form L W input addSignatureTo logger :
  signed_requests (calls (sign L W input addSignatureTo logger))
  = match new_URL L (address input) with
    | Ok url => if body_missing input then [] else [submitted input url]
    | Err _ => []
    end
  /\ signers (calls (sign L W input addSignatureTo logger))
     = match new_URL L (address input) with
       | Ok url => if body_missing input then [] else [new_signer input]
       | Err _ => []
       end.
Proof.
  destruct (new_URL L (address input)) as [url|e] eqn:Hurl.
  - destruct (body_rule_cases input) as [Hacc|[Hm Hb]].
    + assert (Hmiss : body_missing input = false).
      { unfold body_missing. destruct Hacc as [->| ->]; [reflexivity|].
        apply andb_false_r. }
      rewrite Hmiss. now apply signed_requests_reached.
    + assert (Hmiss : body_missing input = true).
      { unfold body_missing. apply String.eqb_neq in Hm. now rewrite Hm, Hb. }
      rewrite Hmiss, signed_requests_signing, signers_signing.
      destruct (Run_signing_calls _ _ _ _ _ _
                  (sign_Run L W input addSignatureTo logger))
        as [->|(url' & _ & [Hget|Htrue] & _)]; [split; reflexivity| |];
        congruence.
  - rewrite signed_requests_signing, signers_signing.
    destruct (Run_signing_calls _ _ _ _ _ _
                (sign_Run L W input addSignatureTo logger))
      as [->|(url' & Hu & _)]; [split; reflexivity|congruence].
Qed.

(** X8: the mode decides how the request is signed, never what is signed.
    With the same libraries, the requests handed to the signer and the signers
    that receive them are the same in every mode, in every world, with or
    without a logger. *)
Theorem submission_ignores_mode L W1 W2 input mode1 mode2 logger1 logger2 :
  signed_requests (calls (sign L W1 input mode1 logger1))
  = signed_requests (calls (sign L W2 input mode2 logger2))
  /\ signers (calls (sign L W1 input mode1 logger1))
     = signers (calls (sign L W2 input mode2 logger2)).
Proof.
  destruct (signed_requests_closed_form L W1 input mode1 logger1) as [-> ->].
  destruct (signed_requests_closed_form L W2 input mode2 logger2) as [-> ->].
  split; reflexivity.
Qed.

(** ** The logger is an observer *)

(** A run is determined by its arguments. *)
Lemma Run_deterministic L W input addSignatureTo logger m1 m2 :
  Run L W input addSignatureTo logger m1 ->
  Run L W input addSignatureTo logger m2 ->
  m1 = m2.
Proof.
  intros HR1 HR2.
  destruct HR1 as [e He|url Hu Hm Hb|url e Hu Ha Hmode H1|url signed Hu Ha Hmode H1
                   |url e Hu Ha Hmode H1|url signed Hu Ha Hmode H1];
    destruct HR2 as [e' He'|url' Hu' Hm' Hb'|url' e' Hu' Ha' Hmode' H2
                     |url' signed' Hu' Ha' Hmode' H2
                     |url' e' Hu' Ha' Hmode' H2|url' signed' Hu' Ha' Hmode' H2];
    try congruence;
    try (destruct Ha; congruence); try (destruct Ha'; congruence);
    assert (url' = url) by congruence; subst url'; congruence.
Qed.

Lemma without_debug_app t1 t2 :
  without_debug (t1 ++ t2) = without_debug t1 ++ without_debug t2.
Proof. apply List.filter_app. Qed.

Lemma without_debug_logged logger message payload :
  without_debug (logged logger message payload) = [].
Proof. now destruct logger. Qed.

Lemma without_debug_before_validation input logger url :
  without_debug (before_validation input logger url)
  = before_validation input None url.
Proof. now destruct logger. Qed.

(** Taking the log calls out of a run leaves a run without a logger. *)
Lemma Run_without_debug L W input addSignatureTo logger m :
  Run L W input addSignatureTo logger m ->
  Run L W input addSignatureTo None (without_debug (calls m), outcome m).
Proof.
  intros HR.
  destruct HR as [e He|url Hu Hm Hb|url e Hu Ha Hmode Hans
                  |url signed Hu Ha Hmode Hans
                  |url e Hu Ha Hmode Hans|url signed Hu Ha Hmode Hans];
    unfold calls, outcome; cbn [fst snd];
    rewrite ?without_debug_app, ?without_debug_before_validation.
  - now apply Run_address_rejected.
  - now apply Run_body_missing.
  - now apply (Run_sign_failed L W input addSignatureTo None url e).
  - change (without_debug (call_sign (new_signer input) (submitted input url)
                           :: logged logger msg_post (delete_host signed)))
      with (call_sign (new_signer input) (submitted input url)
            :: without_debug (logged logger msg_post (delete_host signed))).
    rewrite without_debug_logged.
    now apply (Run_signed L W input addSignatureTo None url signed).
  - now apply (Run_presign_failed L W input addSignatureTo None url e).
  - change (without_debug (call_presign (new_signer input) (submitted input url)
                           :: logged logger msg_post signed))
      with (call_presign (new_signer input) (submitted input url)
            :: without_debug (logged logger msg_post signed)).
    rewrite without_debug_logged.
    now apply (Run_presigned L W input addSignatureTo None url signed).
Qed.

(** X9: the logger only observes.  A run with a logger, with its log calls
    taken out, is the run without a logger: the same calls to [URL] and to the
    signer in the same order, and the same outcome; and a run without a logger
    logs nothing. *)
Theorem logger_only_observes L W input addSignatureTo logger :
  without_debug (calls (sign L W input addSignatureTo logger))
  = calls (sign L W input addSignatureTo None)
  /\ outcome (sign L W input addSignatureTo logger)
     = outcome (sign L W input addSignatureTo None)
  /\ debug_entries (calls (sign L W input addSignatureTo None)) = [].
Proof.
  pose proof (Run_deterministic _ _ _ _ _ _ _
                (Run_without_debug _ _ _ _ _ _
                   (sign_Run L W input addSignatureTo logger))
                (sign_Run L W input addSignatureTo None)) as Heq.
  rewrite <- Heq. split; [reflexivity|]. split; [reflexivity|].
  cbn [calls fst].
  generalize (calls (sign L W input addSignatureTo logger)).
  intros t. induction t as [|c t IH]; [reflexivity|].
  destruct c; simpl; unfold without_debug in IH; now rewrite ?IH.
Qed.

(** ** Deleting a header that is not there (line 82) *)

(** X10: in headers mode, when the signer's answer has no [host] header, the
    [delete] of line 82 changes nothing and [sign] returns the answer as it
    is. *)
Theorem absent_host_is_left_alone L W input logger url signed :
  new_URL L (address input) = Ok url ->
  body_accepted input ->
  signer_answer W (sigv4_sign L) (new_signer input) (submitted input url)
  = Ok signed ->
  HttpRequest.headers signed !! "host" = None ->
  outcome (sign L W input (Some "headers") logger) = Returned signed.
Proof.
  intros Hurl Hacc Hans Hnone.
  assert (Hsame : delete_host signed = signed).
  { unfold delete_host, HttpRequest.set_headers.
    rewrite (delete_id _ _ Hnone). now destruct signed. }
  destruct (sign_Run L W input (Some "headers") logger)
    as [e He|url' Hu Hm Hb|url' e Hu _ _ H|url' signed' Hu _ _ H
        |url' e Hu _ Hmode _|url' signed' Hu _ Hmode _];
    try congruence; try (destruct Hacc; congruence);
    assert (url' = url) by congruence; subst url';
    unfold outcome; cbn [snd]; congruence.
Qed.

Lemma absent_host_is_left_alone_witness :
  outcome (sign sample_bare_libraries Sample.world Sample.get_loaded
             (Some "headers") None)
  = Returned
      {| HttpRequest.hostname := "example-api.com";
         HttpRequest.path := "/graphql";
         HttpRequest.method := "GET";
         HttpRequest.headers := ∅;
         HttpRequest.query := ∅;
         HttpRequest.body := JSUndefined |}.
Proof.
  apply (absent_host_is_left_alone sample_bare_libraries Sample.world
           Sample.get_loaded None (URL.mk "example-api.com" "/graphql"));
    [reflexivity | left; reflexivity | reflexivity | reflexivity].
Defined.

(** ** When exactly [sign] fails *)

(** X11: [sign] throws its validation error exactly when the address is
    accepted, the method is anything but the exact string [GET], and the body
    is falsy; a method outside the declared three, or [get] in lower case,
    counts as not GET. *)
Theorem validation_error_exactly L W input addSignatureTo logger :
  outcome (sign L W input addSignatureTo logger)
  = Thrown (BadRequestException "Request body is missing")
  <-> (exists url, new_URL L (address input) = Ok url)
      /\ RequestSignatureInput.method input <> "GET"
      /\ ToBoolean (RequestSignatureInput.body input) = false.
Proof.
  split.
  - intros Ho.
    destruct (Run_thrown _ _ _ _ _ _ _
                (sign_Run L W input addSignatureTo logger) Ho)
      as (_ & Hm & Hb & _).
    split; [|now split]. revert Ho.
    destruct (sign_Run L W input addSignatureTo logger)
      as [e He|url Hu _ _|url e Hu _ _ _|url signed Hu _ _ _
          |url e Hu _ _ _|url signed Hu _ _ _];
      unfold outcome; cbn [snd]; intros Ho; try discriminate; eauto.
  - intros ([url Hu] & Hm & Hb).
    destruct (sign_Run L W input addSignatureTo logger)
      as [e He|url' Hu' _ _|url' e Hu' [Ha|Ha] _ _|url' signed Hu' [Ha|Ha] _ _
          |url' e Hu' [Ha|Ha] _ _|url' signed Hu' [Ha|Ha] _ _];
      try congruence; reflexivity.
Qed.

Lemma validation_error_exactly_witness :
  outcome (sign Sample.libraries Sample.world
             (RequestSignatureInput.mk "execute-api" "eu-west-1" None
                "example-api.com" (Some "/users") "get" JSNull None None)
             None None)
  = Thrown (BadRequestException "Request body is missing").
Proof.
  apply validation_error_exactly. split; [|split].
  - eexists. reflexivity.
  - discriminate.
  - reflexivity.
Defined.

(** X12: an address that the [URL] constructor rejects ends the run there:
    the constructor's error comes out unchanged, not as a
    [BadRequestException], and nothing else was called, neither logger nor
    signer, whatever the method and the body. *)
Theorem rejected_address_propagates L W input addSignatureTo logger e :
  new_URL L (address input) = Err e ->
  outcome (sign L W input addSignatureTo logger) = Propagated e
  /\ calls (sign L W input addSignatureTo logger) = [call_URL (address input)].
Proof.
  intros Hurl.
  destruct (sign_Run L W input addSignatureTo logger)
    as [e' He|url Hu _ _|url e' Hu _ _ _|url signed Hu _ _ _
        |url e' Hu _ _ _|url signed Hu _ _ _];
    try congruence.
  unfold outcome, calls; cbn [fst snd]. split; congruence.
Qed.

Lemma rejected_address_propagates_witness :
  outcome (sign Sample.libraries Sample.world Sample.post_nowhere
             (Some "headers") (Some sample_logger))
  = Propagated (TypeError "Invalid URL")
  /\ calls (sign Sample.libraries Sample.world Sample.post_nowhere
              (Some "headers") (Some sample_logger))
     = [call_URL "https://"].
Proof.
  exact (rejected_address_propagates Sample.libraries Sample.world
           Sample.post_nowhere (Some "headers") (Some sample_logger)
           (TypeError "Invalid URL") eq_refl).
Defined.
